(** * python-lsp: the request/response adapter of [server.py]

    A shallow embedding of the translation layer of [server.py]: the
    completion-kind table, the range builder, the virtual-path namer and
    the two request handlers, together with the properties of that layer.

    Conventions of the embedding.
    - Python [int] is [Z]; Python [str] is [string], and so is [bytes].
      Whether a text can be encoded is up to [str.encode], a collaborator.
    - A Python [dict] is a [gmap] with [string] keys.
    - An optional argument ([=None]) and an attribute that may hold [None]
      are [option] values.
    - A call into a collaborator (hashlib, jedi, ast) is a function taken
      as a Section variable; a call that may raise returns a [result].
    - What the handlers print on the console is not part of the model. *)

From stdpp Require Import base numbers option list strings gmap fin_maps.
From stdpp Require Import pretty.
From Stdlib Require Import ZArith Lia.

Local Open Scope string_scope.
Local Open Scope list_scope.
Local Open Scope Z_scope.

(** ** Python values and control flow *)

Module Py.

(** [x or y] where [x] is [None] or an [int]: [None] and [0] are both
    falsy, so the right operand is taken for either of them. *)
Definition or_ (x : option Z) (y : Z) : Z :=
  match x with
  | Some v => if Z.eqb v 0 then y else v
  | None => y
  end.

(** [d.get(k, default)] *)
Definition get {V} (d : gmap string V) (k : string) (default : V) : V :=
  match d !! k with
  | Some v => v
  | None => default
  end.

End Py.

(** ** Kind mapper *)

Definition COMPLETION_KINDS : gmap string Z :=
  <["module" := 9]> (<["class" := 7]> (<["instance" := 6]> (<["function" := 3]>
  (<["param" := 6]> (<["path" := 17]> (<["keyword" := 14]> (<["property" := 10]>
  (<["method" := 2]> ∅)))))))).

Definition get_completion_kind (type_name : string) : Z :=
  Py.get COMPLETION_KINDS type_name 1.

(** ** Range builder *)

Definition create_range (line column : Z) (end_line end_column : option Z)
  : gmap string (gmap string Z) :=
  let end_line := Py.or_ end_line line in
  let end_column := Py.or_ end_column (column + 1) in
  <["start" := <["line" := line]> (<["character" := column]> ∅)]>
  (<["end" := <["line" := end_line]> (<["character" := end_column]> ∅)]> ∅).

(** ** Data models of the API *)

Record Position := { line : Z; character : Z }.

Record TextDocument := { text : string }.

Record CompletionParams := { text_document : TextDocument; position : Position }.

Record CompletionItem := {
  label : string;
  kind : Z;
  detail : option string;
  documentation : option string
}.

Record Diagnostic := {
  range : gmap string (gmap string Z);
  message : string;
  severity : Z
}.

Record CompletionResponse := { items : list CompletionItem }.

Record DiagnosticResponse := { diagnostics : list Diagnostic }.

(** ** Exceptions *)

(** The exceptions a collaborator may raise, all subclasses of
    [Exception].  Of a [SyntaxError] the code reads [lineno], [offset]
    (each an [int] or [None]) and [str(e)]; of any other exception only
    [str(e)]. *)
Inductive PyException :=
| SyntaxError (lineno offset : option Z) (str_e : string)
| Exception (str_e : string).

Definition str (e : PyException) : string :=
  match e with
  | SyntaxError _ _ s => s
  | Exception s => s
  end.

(** A call that returns or raises. *)
Inductive result (A : Type) :=
| Return (a : A)
| Raise (e : PyException).
Arguments Return {A} a.
Arguments Raise {A} e.

#[export] Instance result_bind : MBind result := fun A B f m =>
  match m with
  | Return a => f a
  | Raise e => Raise e
  end.

(** What a request handler hands to the HTTP framework: a response
    model, an [HTTPException] it raised itself, or an exception it let
    through. *)
Inductive outcome (A : Type) :=
| Response (body : A)
| HTTPException (status_code : Z) (detail : string)
| Unhandled (e : PyException).
Arguments Response {A} body.
Arguments HTTPException {A} status_code detail.
Arguments Unhandled {A} e.

(** ** The engine's objects, as far as the handlers read them *)

Record Completion := {
  name : string;
  type : string;
  docstring : result string
}.

Record Script := {
  complete : Z -> Z -> result (list Completion)
}.

Section Server.

(** [document_text.encode()]: the UTF-8 bytes of the text, or the
    [UnicodeEncodeError] of a text that has none (a lone surrogate). *)
Variable encode : string -> result string.

(** [hashlib.md5(data).hexdigest()] *)
Variable md5_hexdigest : string -> string.

(** [jedi.Script(code=..., path=...)] *)
Variable jedi_Script : string -> string -> result Script.

(** [ast.parse(source)]; the tree it returns is not used. *)
Variable ast_parse : string -> result unit.

(** ** Virtual document namer *)

Definition get_virtual_path (document_text : string) : result string :=
  data ← encode document_text;
  let content_hash := md5_hexdigest data in
  Return ("<virtual_document_" +:+ content_hash +:+ ".py>").

(** ** Completion handler *)

(** The [for completion in completions] loop, appending to
    [completion_items]. *)
Fixpoint completion_loop (completions : list Completion)
    (completion_items : list CompletionItem) : result (list CompletionItem) :=
  match completions with
  | [] => Return completion_items
  | completion :: completions =>
      doc ← docstring completion;
      let item := {| label := name completion;
                     kind := get_completion_kind (type completion);
                     detail := Some (type completion);
                     documentation := Some doc |} in
      completion_loop completions (completion_items ++ [item])
  end.

Definition provide_completion (params : CompletionParams)
  : outcome CompletionResponse :=
  let try_ : result CompletionResponse :=
    let document_text := text (text_document params) in
    let line := line (position params) + 1 in
    let character := character (position params) in
    path ← get_virtual_path document_text;
    script ← jedi_Script document_text path;
    completions ← complete script line character;
    completion_items ← completion_loop completions [];
    Return {| items := completion_items |} in
  match try_ with
  | Return response => Response response
  | Raise e => HTTPException 500 ("Completion error: " +:+ str e)
  end.

(** ** Diagnostics handler *)

Definition provide_diagnostics (params : TextDocument)
  : outcome DiagnosticResponse :=
  let document_text := text params in
  let diagnostics := [] in
  match ast_parse document_text with
  | Return _ => Response {| diagnostics := diagnostics |}
  | Raise (SyntaxError lineno offset _ as e) =>
      let line := match lineno with Some lineno => lineno - 1 | None => 0 end in
      let col := match offset with Some offset => offset - 1 | None => 0 end in
      let line := if line <? 0 then 0 else line in
      let col := if col <? 0 then 0 else col in
      let diagnostic := {| range := create_range line col None None;
                           message := str e;
                           severity := 1 |} in
      Response {| diagnostics := diagnostics ++ [diagnostic] |}
  | Raise e => Unhandled e
  end.

(** ** What the engine did for a completion request *)

Definition docstring_returns (completion : Completion) : Prop :=
  exists doc : string, docstring completion = Return doc.

(** Every call into the engine returned: the script was built for the
    text under its virtual path, the query gave [completions], and each of
    them gave its docstring. *)
Definition engine_returns (params : CompletionParams)
    (completions : list Completion) : Prop :=
  let document_text := text (text_document params) in
  exists (path : string) (script : Script),
    get_virtual_path document_text = Return path /\
    jedi_Script document_text path = Return script /\
    complete script (line (position params) + 1) (character (position params))
      = Return completions /\
    Forall docstring_returns completions.

(** The engine was called, with the text under its virtual path, and
    the first of its calls that raised, raised [e]. *)
Inductive engine_raises (params : CompletionParams) (e : PyException) : Prop :=
| Script_raises (path : string) :
    get_virtual_path (text (text_document params)) = Return path ->
    jedi_Script (text (text_document params)) path = Raise e ->
    engine_raises params e
| complete_raises (path : string) (script : Script) :
    get_virtual_path (text (text_document params)) = Return path ->
    jedi_Script (text (text_document params)) path = Return script ->
    complete script (line (position params) + 1) (character (position params))
      = Raise e ->
    engine_raises params e
| docstring_raises (path : string) (script : Script)
    (before : list Completion) (completion : Completion)
    (after : list Completion) :
    get_virtual_path (text (text_document params)) = Return path ->
    jedi_Script (text (text_document params)) path = Return script ->
    complete script (line (position params) + 1) (character (position params))
      = Return (before ++ completion :: after) ->
    Forall docstring_returns before ->
    docstring completion = Raise e ->
    engine_raises params e.

End Server.

(** The item the loop makes of a match. *)
Definition item_of (completion : Completion) (item : CompletionItem) : Prop :=
  label item = name completion /\
  kind item = get_completion_kind (type completion) /\
  detail item = Some (type completion) /\
  exists doc : string,
    docstring completion = Return doc /\ documentation item = Some doc.

(** ** The translator as the design document words it *)

Definition toEngineLine (clientLine : Z) : Z := clientLine + 1.

(** The engine side may report no line at all. *)
Definition toClientLine (engineLine : option Z) : Z :=
  match engineLine with
  | Some e => Z.max (e - 1) 0
  | None => 0
  end.

(** The keys of [COMPLETION_KINDS], in the order of the literal. *)
Definition completion_kind_names : list string :=
  ["module"; "class"; "instance"; "function"; "param"; "path"; "keyword";
   "property"; "method"].

(** Reading a position back out of a range dict. *)
Definition range_line (r : gmap string (gmap string Z)) (k : string) : option Z :=
  r !! k ≫= (.!! "line").

Definition range_character (r : gmap string (gmap string Z)) (k : string) : option Z :=
  r !! k ≫= (.!! "character").

(** ** Sample collaborators, for running the handlers *)

Module Sample.

(** A checker that accepts one assignment and reports the missing colon
    of [if True] the way CPython words it. *)
Definition ast_parse (source : string) : result unit :=
  if decide (source = "x = 1") then Return ()
  else if decide (source = "if True") then
    Raise (SyntaxError (Some 1) (Some 8) "expected ':' (<unknown>, line 1)")
  else Raise (Exception "source code string cannot contain null bytes").

(** A text the checker refuses without a syntax error. *)
Definition nul_text : string := String Ascii.zero "".

(** The one text of the examples that has no encoding: the surrogate
    U+D800 alone, held as the three bytes ED A0 80. *)
Definition lone_surrogate : string :=
  String (Ascii.ascii_of_nat 237)
    (String (Ascii.ascii_of_nat 160) (String (Ascii.ascii_of_nat 128) "")).

(** [str.encode] on the texts of the examples: they are ASCII and their
    own encoding, but for the lone surrogate. *)
Definition encode (document_text : string) : result string :=
  if decide (document_text = lone_surrogate) then
    Raise (Exception
      "'utf-8' codec can't encode character '\ud800' in position 0: surrogates not allowed")
  else Return document_text.

(** A stand-in digest: md5's value on the empty text and on [a], the
    text itself elsewhere. *)
Definition md5_hexdigest (data : string) : string :=
  if decide (data = "") then "d41d8cd98f00b204e9800998ecf8427e"
  else if decide (data = "a") then "0cc175b9c0f1b6a831c399e269772661"
  else data.

Definition add : Completion :=
  {| name := "add"; type := "function";
     docstring := Return "add(a, b)" |}.

Definition Calculator : Completion :=
  {| name := "Calculator"; type := "class";
     docstring := Return "Calculator()" |}.

Definition broken : Completion :=
  {| name := "broken"; type := "statement";
     docstring := Raise (Exception "docstring unavailable") |}.

(** An engine that knows one module, fails on a second and cannot build
    a script for anything else. *)
Definition jedi_Script (code path : string) : result Script :=
  if decide (code = "example_module.") then
    Return {| complete := fun _ _ => Return [add; Calculator] |}
  else if decide (code = "broken_module.") then
    Return {| complete := fun _ _ => Return [add; broken; Calculator] |}
  else if decide (code = "") then
    Return {| complete := fun _ _ => Raise (Exception "line out of range") |}
  else Raise (Exception "engine fault").

End Sample.

(** * [example_module.py]: the module the completion examples import

    The arguments are taken to be Python [int]s. *)

Module example_module.

(** What [a / b] gives is left open: true division of [int]s gives a
    float, or raises [OverflowError] when the quotient is too large for
    one. *)
Section Division.

Context {float : Type}.
Variable truediv : Z -> Z -> result float.

Definition add (a b : Z) : Z := a + b.

Definition subtract (a b : Z) : Z := a - b.

Definition multiply (a b : Z) : Z := a * b.

Definition divide (a b : Z) : result float :=
  if b =? 0 then Raise (Exception "Cannot divide by zero")
  else truediv a b.

End Division.

(** An instance of [Calculator] is its one attribute. *)
Record Calculator := { value : Z }.

Module Calculator.

(** [Calculator(initial_value)]; the argument defaults to 0. *)
Definition __init__ (initial_value : option Z) : Calculator :=
  {| value := default 0 initial_value |}.

(** A method gives what it returns and the instance as it leaves it. *)
Definition add (self : Calculator) (number : Z) : Z * Calculator :=
  let self := {| value := value self + number |} in
  (value self, self).

Definition subtract (self : Calculator) (number : Z) : Z * Calculator :=
  let self := {| value := value self - number |} in
  (value self, self).

Definition reset (self : Calculator) : Z * Calculator :=
  let self := {| value := 0 |} in
  (value self, self).

Definition get_value (self : Calculator) : Z * Calculator :=
  (value self, self).

(** A call of one of the four methods, and a run of such calls on one
    instance, with what each call returned. *)
Inductive call :=
| Add (number : Z)
| Subtract (number : Z)
| Reset
| GetValue.

Definition invoke (self : Calculator) (c : call) : Z * Calculator :=
  match c with
  | Add number => add self number
  | Subtract number => subtract self number
  | Reset => reset self
  | GetValue => get_value self
  end.

(** What a call adds to the value, when it is not a reset. *)
Definition delta (c : call) : Z :=
  match c with
  | Add number => number
  | Subtract number => - number
  | Reset | GetValue => 0
  end.

Fixpoint run (self : Calculator) (calls : list call) : list Z * Calculator :=
  match calls with
  | [] => ([], self)
  | c :: calls =>
      let '(returned, self) := invoke self c in
      let '(returns, self) := run self calls in
      (returned :: returns, self)
  end.

End Calculator.

End example_module.

(** * [test_client.py]: the client of the two endpoints *)

(** [d[k]], raising [KeyError] (whose text is the key in quotes) when
    the key is missing. *)
Definition getitem {V} (d : gmap string V) (k : string) : result V :=
  match d !! k with
  | Some v => Return v
  | None => Raise (Exception ("'" +:+ k +:+ "'"))
  end.

(** A computation that prints lines and then returns or raises. *)
Record io (A : Type) := IO { printed : list string; returned : result A }.
Arguments IO {A} printed returned.
Arguments printed {A} _.
Arguments returned {A} _.

#[export] Instance io_ret : MRet io := fun A a => IO [] (Return a).

#[export] Instance io_bind : MBind io := fun A B f m =>
  match returned m with
  | Return a => IO (printed m ++ printed (f a)) (returned (f a))
  | Raise e => IO (printed m) (Raise e)
  end.

Definition print (s : string) : io unit := IO [s] (Return ()).

Definition call_ {A} (r : result A) : io A := IO [] r.

Module Client.

Definition LSP_SERVER_URL : string := "http://localhost:8000".

(** The values of the fields of a completion item in a JSON body. *)
Inductive scalar :=
| JNull
| JInt (z : Z)
| JStr (s : string).

(** How an f-string shows such a value. *)
Definition format (v : scalar) : string :=
  match v with
  | JNull => "None"
  | JInt z => pretty z
  | JStr s => s
  end.

(** What [requests.post] returns, as far as the client reads it:
    [status_code], [text] and [json()], the body being an object of
    lists. *)
Record HTTPResponse (I : Type) := {
  status_code : Z;
  text : string;
  json : result (gmap string (list I))
}.
Arguments status_code {I} _.
Arguments text {I} _.
Arguments json {I} _.

(** The line feed that starts the banner of [test_completions]. *)
Definition LF : string := String (Ascii.ascii_of_nat 10) "".

Section Requests.

(** [requests.post(endpoint, json=data)] for the two kinds of request,
    with the items of the body as JSON objects of [I]. *)
Context {I : Type}.
Variable post_completion :
  string -> CompletionParams -> result (HTTPResponse (gmap string scalar)).
Variable post_diagnostic : string -> TextDocument -> result (HTTPResponse I).

(** [str.strip] *)
Variable strip : string -> string.

Definition get_completions (code : string) (line character : Z)
  : io (list (gmap string scalar)) :=
  let endpoint := LSP_SERVER_URL +:+ "/completion" in
  let data := {| text_document := Build_TextDocument code;
                 position := {| line := line; character := character |} |} in
  response ← call_ (post_completion endpoint data);
  if decide (status_code response = 200) then
    body ← call_ (json response);
    call_ (getitem body "items")
  else
    _ ← print ("Error: " +:+ pretty (status_code response) +:+ ", "
               +:+ text response);
    mret [].

Definition get_diagnostics (code : string) : io (list I) :=
  let endpoint := LSP_SERVER_URL +:+ "/diagnostic" in
  let data := Build_TextDocument code in
  response ← call_ (post_diagnostic endpoint data);
  if decide (status_code response = 200) then
    body ← call_ (json response);
    call_ (getitem body "diagnostics")
  else
    _ ← print ("Error: " +:+ pretty (status_code response) +:+ ", "
               +:+ text response);
    mret [].

(** The [for i, item in enumerate(completions)] loop from index [i] on,
    [items] being the items not yet visited. *)
Fixpoint display_loop (completions : list (gmap string scalar))
    (max_display : Z) (i : Z) (items : list (gmap string scalar)) : io unit :=
  match items with
  | [] => mret ()
  | item :: items =>
      if max_display <=? i then
        print ("  ... " +:+ pretty (Z.of_nat (length completions) - max_display)
               +:+ " more items not shown")
      else
        label ← call_ (getitem item "label");
        detail ← call_ (getitem item "detail");
        _ ← print ("  - " +:+ format label +:+ " (" +:+ format detail +:+ ")");
        display_loop completions max_display (i + 1) items
  end.

(** [max_display] is 10 when the caller leaves it out. *)
Definition test_completions (title code : string) (line character : Z)
    (max_display : Z) : io (list (gmap string scalar)) :=
  _ ← print (LF +:+ "=== TESTING " +:+ title +:+ " ===");
  _ ← print ("Code: " +:+ strip code);
  _ ← print ("Position: Line " +:+ pretty line +:+ ", Character "
             +:+ pretty character);
  completions ← get_completions code line character;
  _ ← match completions with
      | _ :: _ =>
          _ ← print ("Found " +:+ pretty (Z.of_nat (length completions))
                     +:+ " completions, showing first "
                     +:+ pretty (Z.min max_display (Z.of_nat (length completions)))
                     +:+ ":");
          display_loop completions max_display 0 completions
      | [] => print "No completions found."
      end;
  mret completions.

End Requests.

(** An item the display loop can show: it has the two keys the loop
    reads. *)
Definition displayable (item : gmap string scalar) : Prop :=
  is_Some (item !! "label") /\ is_Some (item !! "detail").

(** The line the display loop prints for an item. *)
Definition shows (item : gmap string scalar) (printed_line : string) : Prop :=
  exists label detail : scalar,
    item !! "label" = Some label /\ item !! "detail" = Some detail /\
    printed_line = "  - " +:+ format label +:+ " (" +:+ format detail +:+ ")".

End Client.

(** ** Sample collaborators of the client *)

Module ClientSample.

Definition item (label detail : string) (kind : Z) : gmap string Client.scalar :=
  <["label" := Client.JStr label]> (<["kind" := Client.JInt kind]>
  (<["detail" := Client.JStr detail]> (<["documentation" := Client.JNull]> ∅))).

(** An item the server would not send: it has no [detail]. *)
Definition bare_item : gmap string Client.scalar :=
  <["label" := Client.JStr "bare"]> ∅.

(** A server that answers one document with three items, the last of
    them malformed, and fails on any other. *)
Definition post_completion (endpoint : string) (data : CompletionParams)
  : result (Client.HTTPResponse (gmap string Client.scalar)) :=
  if decide (text (text_document data) = "example_module.") then
    Return {| Client.status_code := 200;
              Client.text := "";
              Client.json := Return (<["items" :=
                [item "add" "function" 3; item "Calculator" "class" 7;
                 bare_item]]> ∅) |}
  else
    Return {| Client.status_code := 500;
              Client.text := "Internal Server Error";
              Client.json := Raise (Exception "Expecting value") |}.

Definition strip (s : string) : string := s.

(** A server that finds the missing colon of [if True] and has nothing
    to say of any other text. *)
Definition post_diagnostic (endpoint : string) (data : TextDocument)
  : result (Client.HTTPResponse Diagnostic) :=
  Return {| Client.status_code := 200;
            Client.text := "";
            Client.json := Return (<["diagnostics" :=
              if decide (text data = "if True") then
                [ {| range := create_range 0 7 None None;
                     message := "expected ':' (<unknown>, line 1)";
                     severity := 1 |} ]
              else [] ]> ∅) |}.

End ClientSample.

Example kind_function : get_completion_kind "function" = 3.
Proof. reflexivity. Qed.

Example kind_parameter : get_completion_kind "parameter" = 1.
Proof. reflexivity. Qed.

Example range_point :
  create_range 4 2 None None !! "end" = Some (<["line" := 4]> (<["character" := 3]> ∅)).
Proof. reflexivity. Qed.

Example completion_sample :
  provide_completion Sample.encode Sample.md5_hexdigest Sample.jedi_Script
    {| text_document := {| text := "example_module." |};
       position := {| line := 0; character := 15 |} |}
  = Response {| items := [
      {| label := "add"; kind := 3; detail := Some "function";
         documentation := Some "add(a, b)" |};
      {| label := "Calculator"; kind := 7; detail := Some "class";
         documentation := Some "Calculator()" |} ] |}.
Proof. reflexivity. Qed.

Example completion_sample_broken :
  provide_completion Sample.encode Sample.md5_hexdigest Sample.jedi_Script
    {| text_document := {| text := "broken_module." |};
       position := {| line := 0; character := 14 |} |}
  = HTTPException 500 "Completion error: docstring unavailable".
Proof. reflexivity. Qed.

Example diagnostics_sample_valid :
  provide_diagnostics Sample.ast_parse {| text := "x = 1" |}
  = Response {| diagnostics := [] |}.
Proof. reflexivity. Qed.

Example diagnostics_sample_missing_colon :
  provide_diagnostics Sample.ast_parse {| text := "if True" |}
  = Response {| diagnostics := [
      {| range := create_range 0 7 None None;
         message := "expected ':' (<unknown>, line 1)";
         severity := 1 |} ] |}.
Proof. reflexivity. Qed.

Example virtual_path_sample :
  get_virtual_path Sample.encode Sample.md5_hexdigest ""
  = Return "<virtual_document_d41d8cd98f00b204e9800998ecf8427e.py>".
Proof. reflexivity. Qed.

Example completion_sample_lone_surrogate :
  provide_completion Sample.encode Sample.md5_hexdigest Sample.jedi_Script
    {| text_document := {| text := Sample.lone_surrogate |};
       position := {| line := 0; character := 1 |} |}
  = HTTPException 500
      "Completion error: 'utf-8' codec can't encode character '\ud800' in position 0: surrogates not allowed".
Proof. reflexivity. Qed.

(** * Properties *)

(** ** Kind mapper *)

Lemma COMPLETION_KINDS_dom :
  dom COMPLETION_KINDS = list_to_set completion_kind_names.
Proof.
  unfold COMPLETION_KINDS, completion_kind_names.
  rewrite !dom_insert_L, dom_empty_L. simpl. reflexivity.
Qed.

Lemma get_completion_kind_default (type_name : string) :
  type_name ∉ completion_kind_names -> get_completion_kind type_name = 1.
Proof.
  intros Hnot. unfold get_completion_kind, Py.get.
  assert (COMPLETION_KINDS !! type_name = None) as ->; [|reflexivity].
  apply not_elem_of_dom. rewrite COMPLETION_KINDS_dom.
  rewrite elem_of_list_to_set. exact Hnot.
Qed.

(** C1, as the design document states it, fails at its fifth entry: the
    table has no key [parameter], so that category falls to the default 1
    and not to 6. *)
Lemma get_completion_kind_parameter_counterexample :
  get_completion_kind "parameter" = 1 /\ get_completion_kind "parameter" <> 6.
Proof. split; [reflexivity | discriminate]. Qed.

(** C1 (amended): the mapping is total and agrees with the table of the
    code, whose fifth key is [param]: module→9, class→7, instance→6,
    function→3, param→6, path→17, keyword→14, property→10, method→2; any
    string that is none of these nine keys is mapped to 1. *)
Theorem get_completion_kind_table :
  get_completion_kind "module" = 9 /\
  get_completion_kind "class" = 7 /\
  get_completion_kind "instance" = 6 /\
  get_completion_kind "function" = 3 /\
  get_completion_kind "param" = 6 /\
  get_completion_kind "path" = 17 /\
  get_completion_kind "keyword" = 14 /\
  get_completion_kind "property" = 10 /\
  get_completion_kind "method" = 2 /\
  (forall type_name : string,
     type_name ∉ completion_kind_names -> get_completion_kind type_name = 1).
Proof.
  repeat (split; [reflexivity|]). exact get_completion_kind_default.
Qed.

Lemma get_completion_kind_table_witness :
  get_completion_kind "statement" = 1.
Proof.
  apply get_completion_kind_table.
  unfold completion_kind_names. rewrite !elem_of_cons, elem_of_nil.
  intros H. repeat (destruct H as [H|H]; [discriminate H|]). exact H.
Defined.

(** Every value of the table is one of the enumeration's integers, and
    so is the default. *)
Lemma get_completion_kind_range (type_name : string) :
  get_completion_kind type_name ∈ [1; 2; 3; 6; 7; 9; 10; 14; 17].
Proof.
  unfold get_completion_kind, Py.get.
  destruct (COMPLETION_KINDS !! type_name) as [k|] eqn:Hk; [|set_solver].
  unfold COMPLETION_KINDS in Hk.
  repeat (apply lookup_insert_Some in Hk as [[_ <-]|[_ Hk]]; [set_solver|]).
  rewrite lookup_empty in Hk. discriminate.
Qed.

(** ** Range builder *)

Lemma or_None (y : Z) : Py.or_ None y = y.
Proof. reflexivity. Qed.

Lemma or_nonzero (v y : Z) : v <> 0 -> Py.or_ (Some v) y = v.
Proof. intros Hv. simpl. destruct (Z.eqb_spec v 0); [contradiction | reflexivity]. Qed.

Lemma or_zero (y : Z) : Py.or_ (Some 0) y = y.
Proof. reflexivity. Qed.

Lemma create_range_start (line column : Z) (end_line end_column : option Z) :
  range_line (create_range line column end_line end_column) "start" = Some line /\
  range_character (create_range line column end_line end_column) "start" = Some column.
Proof. split; reflexivity. Qed.

Lemma create_range_end (line column : Z) (end_line end_column : option Z) :
  range_line (create_range line column end_line end_column) "end"
    = Some (Py.or_ end_line line) /\
  range_character (create_range line column end_line end_column) "end"
    = Some (Py.or_ end_column (column + 1)).
Proof. split; reflexivity. Qed.

(** Without an override the range covers the one character at [column]. *)
Lemma create_range_point (line column : Z) :
  create_range line column None None =
  <["start" := <["line" := line]> (<["character" := column]> ∅)]>
  (<["end" := <["line" := line]> (<["character" := column + 1]> ∅)]> ∅).
Proof. reflexivity. Qed.

(** A supplied end is kept when neither of its coordinates is 0. *)
Lemma create_range_override (line column end_line end_column : Z) :
  end_line <> 0 -> end_column <> 0 ->
  range_line (create_range line column (Some end_line) (Some end_column)) "end"
    = Some end_line /\
  range_character (create_range line column (Some end_line) (Some end_column)) "end"
    = Some end_column.
Proof.
  intros Hl Hc. destruct (create_range_end line column (Some end_line) (Some end_column))
    as [-> ->].
  rewrite !or_nonzero by assumption. split; reflexivity.
Qed.

(** C2: a range from line 2, column 5 to the start of line 3 is asked
    for with the explicit end column 0; the code takes that 0 for an absent
    argument and ends the range at column 6 instead. *)
Theorem create_range_explicit_zero_end_column :
  range_line (create_range 2 5 (Some 3) (Some 0)) "end" = Some 3 /\
  range_character (create_range 2 5 (Some 3) (Some 0)) "end" = Some 6.
Proof. split; reflexivity. Qed.

(** The same for an explicit end line 0, whatever the other arguments. *)
Lemma create_range_zero_is_absent (line column : Z) :
  create_range line column (Some 0) (Some 0) = create_range line column None None.
Proof. reflexivity. Qed.

(** ** Virtual document namer *)

Lemma append_cons (c : Ascii.ascii) (a b : string) :
  String c a +:+ b = String c (a +:+ b).
Proof. reflexivity. Qed.

Lemma append_inj_l (p a b : string) : p +:+ a = p +:+ b -> a = b.
Proof.
  induction p as [|c p IH]; intros H; [exact H|].
  rewrite !append_cons in H. injection H as H. exact (IH H).
Qed.

Lemma append_length (a b : string) :
  String.length (a +:+ b) = (String.length a + String.length b)%nat.
Proof.
  induction a as [|c a IH]; [reflexivity|].
  rewrite append_cons. simpl. rewrite IH. reflexivity.
Qed.

Lemma append_inj_r (s a b : string) : a +:+ s = b +:+ s -> a = b.
Proof.
  revert b. induction a as [|c a IH]; intros [|d b] H.
  - reflexivity.
  - apply (f_equal String.length) in H. rewrite !append_length in H.
    simpl in H. lia.
  - apply (f_equal String.length) in H. rewrite !append_length in H.
    simpl in H. lia.
  - rewrite !append_cons in H. injection H as -> H. f_equal. exact (IH _ H).
Qed.

Lemma Return_inj {A} (a b : A) : Return a = Return b -> a = b.
Proof. intros H. injection H. auto. Qed.

Section Namer.

Variable encode : string -> result string.
Variable md5_hexdigest : string -> string.

Lemma get_virtual_path_encoded (document_text data : string) :
  encode document_text = Return data ->
  get_virtual_path encode md5_hexdigest document_text
    = Return ("<virtual_document_" +:+ md5_hexdigest data +:+ ".py>").
Proof. intros H. unfold get_virtual_path. rewrite H. reflexivity. Qed.

Lemma get_virtual_path_unencodable (document_text : string) (e : PyException) :
  encode document_text = Raise e ->
  get_virtual_path encode md5_hexdigest document_text = Raise e.
Proof. intros H. unfold get_virtual_path. rewrite H. reflexivity. Qed.

(** The digest can be read back from the name. *)
Lemma virtual_path_hash_inj (hash1 hash2 : string) :
  "<virtual_document_" +:+ hash1 +:+ ".py>"
    = "<virtual_document_" +:+ hash2 +:+ ".py>" ->
  hash1 = hash2.
Proof. intros H. apply append_inj_l in H. exact (append_inj_r _ _ _ H). Qed.

(** Two texts get the same name exactly when their digests agree. *)
Lemma get_virtual_path_eq_iff (text1 text2 data1 data2 : string) :
  encode text1 = Return data1 ->
  encode text2 = Return data2 ->
  get_virtual_path encode md5_hexdigest text1
    = get_virtual_path encode md5_hexdigest text2
  <-> md5_hexdigest data1 = md5_hexdigest data2.
Proof.
  intros H1 H2.
  rewrite (get_virtual_path_encoded _ _ H1), (get_virtual_path_encoded _ _ H2).
  split; [|intros ->; reflexivity].
  intros H. apply Return_inj in H. exact (virtual_path_hash_inj _ _ H).
Qed.

(** The name is 22 characters longer than the digest. *)
Lemma get_virtual_path_length (document_text data name : string) :
  encode document_text = Return data ->
  get_virtual_path encode md5_hexdigest document_text = Return name ->
  String.length name = (22 + String.length (md5_hexdigest data))%nat.
Proof.
  intros H. rewrite (get_virtual_path_encoded _ _ H). intros [= <-].
  rewrite !append_length. simpl. lia.
Qed.

(** C9 (amended): the namer depends on the text alone, through its
    encoding.  A text that cannot be encoded gets no name: the error of
    [str.encode] is raised.  A text that can be encoded gets the name
    [<virtual_document_], digest, [.py>], where the digest is that of its
    encoded bytes and is the only string the name has between its two
    ends; texts of identical content get the identical name, and two names
    agree exactly when the digests do. *)
Theorem get_virtual_path_deterministic (document_text : string) :
  (forall e : PyException,
     encode document_text = Raise e ->
     get_virtual_path encode md5_hexdigest document_text = Raise e) /\
  (forall data : string,
     encode document_text = Return data ->
     exists name : string,
       get_virtual_path encode md5_hexdigest document_text = Return name /\
       name = "<virtual_document_" +:+ md5_hexdigest data +:+ ".py>" /\
       (forall content_hash : string,
          name = "<virtual_document_" +:+ content_hash +:+ ".py>" ->
          content_hash = md5_hexdigest data) /\
       (forall other_text other_data : string,
          encode other_text = Return other_data ->
          exists other_name : string,
            get_virtual_path encode md5_hexdigest other_text
              = Return other_name /\
            (other_data = data -> other_name = name) /\
            (other_name = name
             <-> md5_hexdigest other_data = md5_hexdigest data))).
Proof.
  split; [exact (get_virtual_path_unencodable document_text)|].
  intros data H. eexists. split; [exact (get_virtual_path_encoded _ _ H)|].
  split; [reflexivity|]. split.
  - intros content_hash Hname. symmetry. exact (virtual_path_hash_inj _ _ Hname).
  - intros other_text other_data Hother. eexists.
    split; [exact (get_virtual_path_encoded _ _ Hother)|]. split.
    + intros ->. reflexivity.
    + split; [exact (virtual_path_hash_inj _ _) | intros ->; reflexivity].
Qed.

End Namer.

(** C9, as the design document states it, fails on a text that has no
    UTF-8 encoding: for the lone surrogate U+D800 [str.encode] raises and
    the namer returns no name at all. *)
Lemma get_virtual_path_lone_surrogate_counterexample :
  get_virtual_path Sample.encode Sample.md5_hexdigest Sample.lone_surrogate
    = Raise (Exception
        "'utf-8' codec can't encode character '\ud800' in position 0: surrogates not allowed") /\
  (forall name : string,
     get_virtual_path Sample.encode Sample.md5_hexdigest Sample.lone_surrogate
       <> Return name).
Proof. split; [reflexivity | discriminate]. Qed.

(** ** Diagnostics handler *)

Section Diagnostics.

Variable ast_parse : string -> result unit.

Lemma provide_diagnostics_valid (params : TextDocument) (tree : unit) :
  ast_parse (text params) = Return tree ->
  provide_diagnostics ast_parse params = Response {| diagnostics := [] |}.
Proof. intros H. unfold provide_diagnostics. rewrite H. reflexivity. Qed.

Lemma clamp_max (v : Z) : (if v <? 0 then 0 else v) = Z.max v 0.
Proof. destruct (Z.ltb_spec v 0); lia. Qed.

Lemma provide_diagnostics_SyntaxError (params : TextDocument)
    (lineno offset : option Z) (str_e : string) :
  ast_parse (text params) = Raise (SyntaxError lineno offset str_e) ->
  provide_diagnostics ast_parse params =
  Response {| diagnostics := [
    {| range := create_range (toClientLine lineno) (toClientLine offset) None None;
       message := str_e;
       severity := 1 |} ] |}.
Proof.
  intros H. unfold provide_diagnostics. rewrite H. simpl.
  rewrite !clamp_max. unfold toClientLine.
  destruct lineno, offset; reflexivity.
Qed.

Lemma provide_diagnostics_Exception (params : TextDocument) (str_e : string) :
  ast_parse (text params) = Raise (Exception str_e) ->
  provide_diagnostics ast_parse params = Unhandled (Exception str_e).
Proof. intros H. unfold provide_diagnostics. rewrite H. reflexivity. Qed.

Lemma toClientLine_nonneg (v : option Z) : 0 <= toClientLine v.
Proof. destruct v; simpl; lia. Qed.

(** C3: the handler answers with no diagnostic when the parse succeeds
    and with exactly one, of severity 1 and carrying the text of the error,
    when the parse raises a syntax error; whenever it answers, the list has
    at most one entry. *)
Theorem provide_diagnostics_first_error_only (params : TextDocument) :
  (forall tree : unit,
     ast_parse (text params) = Return tree ->
     provide_diagnostics ast_parse params = Response {| diagnostics := [] |}) /\
  (forall e : PyException,
     ast_parse (text params) = Raise e ->
     (exists lineno offset str_e, e = SyntaxError lineno offset str_e) ->
     exists d : Diagnostic,
       provide_diagnostics ast_parse params = Response {| diagnostics := [d] |} /\
       severity d = 1 /\ message d = str e) /\
  (forall response : DiagnosticResponse,
     provide_diagnostics ast_parse params = Response response ->
     (length (diagnostics response) <= 1)%nat).
Proof.
  split; [|split].
  - intros tree H. exact (provide_diagnostics_valid params tree H).
  - intros e H (lineno & offset & str_e & ->).
    eexists. split; [exact (provide_diagnostics_SyntaxError _ _ _ _ H)|].
    split; reflexivity.
  - intros response. destruct (ast_parse (text params)) as [[]|[lineno offset s|s]] eqn:H.
    + rewrite (provide_diagnostics_valid params () H). intros [= <-]. simpl. lia.
    + rewrite (provide_diagnostics_SyntaxError _ _ _ _ H). intros [= <-]. simpl. lia.
    + rewrite (provide_diagnostics_Exception _ _ H). discriminate.
Qed.

(** C4: the one diagnostic of a syntax error starts at the reported
    line and column, each moved from 1-based to 0-based, taken as 0 when
    absent and raised to 0 when negative, and ends one character further on
    the same line. *)
Theorem provide_diagnostics_point_range (params : TextDocument)
    (lineno offset : option Z) (str_e : string) :
  ast_parse (text params) = Raise (SyntaxError lineno offset str_e) ->
  exists (d : Diagnostic) (line col : Z),
    provide_diagnostics ast_parse params = Response {| diagnostics := [d] |} /\
    line = match lineno with Some n => Z.max (n - 1) 0 | None => 0 end /\
    col = match offset with Some n => Z.max (n - 1) 0 | None => 0 end /\
    0 <= line /\ 0 <= col /\
    range d =
      <["start" := <["line" := line]> (<["character" := col]> ∅)]>
      (<["end" := <["line" := line]> (<["character" := col + 1]> ∅)]> ∅).
Proof.
  intros H. eexists _, (toClientLine lineno), (toClientLine offset).
  split; [exact (provide_diagnostics_SyntaxError _ _ _ _ H)|].
  repeat split; try reflexivity; apply toClientLine_nonneg.
Qed.

(** C8: an exception of the parser that is not a syntax error leaves the
    handler as it came, for the framework to answer with a server error; no
    response, and so no diagnostic, is made of it. *)
Theorem provide_diagnostics_unexpected (params : TextDocument) (str_e : string) :
  ast_parse (text params) = Raise (Exception str_e) ->
  provide_diagnostics ast_parse params = Unhandled (Exception str_e) /\
  (forall response : DiagnosticResponse,
     provide_diagnostics ast_parse params <> Response response).
Proof.
  intros H. rewrite (provide_diagnostics_Exception _ _ H).
  split; [reflexivity | discriminate].
Qed.

(** X6: conversely, a diagnostic is only ever made of a syntax error:
    behind every diagnostic of a response is a [SyntaxError] of the parser. *)
Lemma provide_diagnostics_only_syntax (params : TextDocument) (d : Diagnostic)
    (response : DiagnosticResponse) :
  provide_diagnostics ast_parse params = Response response ->
  d ∈ diagnostics response ->
  exists lineno offset str_e,
    ast_parse (text params) = Raise (SyntaxError lineno offset str_e).
Proof.
  destruct (ast_parse (text params)) as [[]|[lineno offset s|s]] eqn:H.
  - rewrite (provide_diagnostics_valid params () H). intros [= <-]. simpl.
    intros Hd. apply elem_of_nil in Hd. contradiction.
  - intros _ _. eauto.
  - rewrite (provide_diagnostics_Exception _ _ H). discriminate.
Qed.

End Diagnostics.

Lemma provide_diagnostics_first_error_only_witness :
  exists d : Diagnostic,
    provide_diagnostics Sample.ast_parse {| text := "if True" |}
      = Response {| diagnostics := [d] |} /\
    severity d = 1 /\ message d = "expected ':' (<unknown>, line 1)".
Proof.
  refine (proj1 (proj2 (provide_diagnostics_first_error_only
    Sample.ast_parse {| text := "if True" |})) _ eq_refl _).
  eexists _, _, _. reflexivity.
Defined.

Lemma provide_diagnostics_point_range_witness :
  exists (d : Diagnostic) (line col : Z),
    provide_diagnostics Sample.ast_parse {| text := "if True" |}
      = Response {| diagnostics := [d] |} /\
    line = 0 /\ col = 7 /\ 0 <= line /\ 0 <= col /\
    range d =
      <["start" := <["line" := line]> (<["character" := col]> ∅)]>
      (<["end" := <["line" := line]> (<["character" := col + 1]> ∅)]> ∅).
Proof.
  exact (provide_diagnostics_point_range Sample.ast_parse {| text := "if True" |}
           (Some 1) (Some 8) "expected ':' (<unknown>, line 1)" eq_refl).
Defined.

Lemma provide_diagnostics_unexpected_witness :
  provide_diagnostics Sample.ast_parse {| text := Sample.nul_text |}
    = Unhandled (Exception "source code string cannot contain null bytes") /\
  (forall response : DiagnosticResponse,
     provide_diagnostics Sample.ast_parse {| text := Sample.nul_text |}
       <> Response response).
Proof.
  exact (provide_diagnostics_unexpected Sample.ast_parse
           {| text := Sample.nul_text |} _ eq_refl).
Defined.

Lemma get_virtual_path_deterministic_witness :
  exists name : string,
    get_virtual_path Sample.encode Sample.md5_hexdigest "a" = Return name /\
    name = "<virtual_document_" +:+ Sample.md5_hexdigest "a" +:+ ".py>" /\
    (forall content_hash : string,
       name = "<virtual_document_" +:+ content_hash +:+ ".py>" ->
       content_hash = Sample.md5_hexdigest "a") /\
    (forall other_text other_data : string,
       Sample.encode other_text = Return other_data ->
       exists other_name : string,
         get_virtual_path Sample.encode Sample.md5_hexdigest other_text
           = Return other_name /\
         (other_data = "a" -> other_name = name) /\
         (other_name = name
          <-> Sample.md5_hexdigest other_data = Sample.md5_hexdigest "a")).
Proof.
  exact (proj2 (get_virtual_path_deterministic Sample.encode
                  Sample.md5_hexdigest "a") "a" eq_refl).
Defined.

(** ** Completion handler *)

Lemma bind_Return {A B} (a : A) (f : A -> result B) : Return a ≫= f = f a.
Proof. reflexivity. Qed.

Lemma bind_Raise {A B} (e : PyException) (f : A -> result B) :
  Raise e ≫= f = Raise e.
Proof. reflexivity. Qed.

Lemma bind_Return_inv {A B} (m : result A) (f : A -> result B) (b : B) :
  m ≫= f = Return b -> exists a, m = Return a /\ f a = Return b.
Proof. destruct m as [a|e]; [eauto | discriminate]. Qed.

(** When every docstring is there, the loop appends one item per match,
    in the order of the matches. *)
Lemma completion_loop_returns (completions : list Completion) :
  Forall docstring_returns completions ->
  forall completion_items : list CompletionItem,
  exists new_items : list CompletionItem,
    completion_loop completions completion_items
      = Return (completion_items ++ new_items) /\
    Forall2 item_of completions new_items.
Proof.
  induction 1 as [|c cs [doc Hdoc] _ IH]; intros acc.
  - exists []. rewrite app_nil_r. split; [reflexivity | constructor].
  - simpl. rewrite Hdoc, bind_Return.
    destruct (IH (acc ++ [ {| label := name c;
                              kind := get_completion_kind (type c);
                              detail := Some (type c);
                              documentation := Some doc |} ]))
      as (new_items & Hloop & Hitems).
    eexists (_ :: new_items). split.
    + rewrite Hloop, <- app_assoc. reflexivity.
    + constructor; [|exact Hitems].
      repeat split. exists doc. split; [exact Hdoc | reflexivity].
Qed.

(** The first docstring that raises ends the loop with its exception,
    whatever had been collected. *)
Lemma completion_loop_raises (before : list Completion) (c : Completion)
    (after : list Completion) (e : PyException) :
  Forall docstring_returns before ->
  docstring c = Raise e ->
  forall completion_items : list CompletionItem,
    completion_loop (before ++ c :: after) completion_items = Raise e.
Proof.
  intros Hbefore Hc. induction Hbefore as [|b bs [doc Hdoc] _ IH]; intros acc; simpl.
  - rewrite Hc. reflexivity.
  - rewrite Hdoc, bind_Return. apply IH.
Qed.

(** A loop that returns has seen every match. *)
Lemma completion_loop_Return_inv (completions : list Completion) :
  forall completion_items result_items : list CompletionItem,
    completion_loop completions completion_items = Return result_items ->
    Forall docstring_returns completions.
Proof.
  induction completions as [|c cs IH]; intros acc res H; [constructor|].
  simpl in H. apply bind_Return_inv in H as (doc & Hdoc & H).
  constructor; [exists doc; exact Hdoc | exact (IH _ _ H)].
Qed.

(** The matches split at the first docstring that raises, if any. *)
Lemma docstrings_return_or_raise (completions : list Completion) :
  Forall docstring_returns completions \/
  exists before c after e,
    completions = before ++ c :: after /\
    Forall docstring_returns before /\ docstring c = Raise e.
Proof.
  induction completions as [|c cs IH]; [left; constructor|].
  destruct (docstring c) as [doc|e] eqn:Hc.
  - destruct IH as [IH|(before & c' & after & e & -> & Hb & Hc')].
    + left. constructor; [exists doc; exact Hc | exact IH].
    + right. exists (c :: before), c', after, e.
      repeat split; [|exact Hc']. constructor; [exists doc; exact Hc | exact Hb].
  - right. exists [], c, cs, e. repeat split; [constructor | exact Hc].
Qed.

Section Completion.

Variable encode : string -> result string.
Variable md5_hexdigest : string -> string.
Variable jedi_Script : string -> string -> result Script.

Lemma provide_completion_returns (params : CompletionParams)
    (completions : list Completion) :
  engine_returns encode md5_hexdigest jedi_Script params completions ->
  exists completion_items : list CompletionItem,
    provide_completion encode md5_hexdigest jedi_Script params
      = Response {| items := completion_items |} /\
    Forall2 item_of completions completion_items.
Proof.
  intros (path & script & Hpath & HScript & Hcomplete & Hdocs).
  destruct (completion_loop_returns completions Hdocs []) as (new & Hloop & Hitems).
  exists new. split; [|exact Hitems].
  unfold provide_completion. rewrite Hpath, bind_Return.
  rewrite HScript, bind_Return, Hcomplete, bind_Return.
  rewrite Hloop. reflexivity.
Qed.

Lemma provide_completion_raises (params : CompletionParams) (e : PyException) :
  engine_raises encode md5_hexdigest jedi_Script params e ->
  provide_completion encode md5_hexdigest jedi_Script params
    = HTTPException 500 ("Completion error: " +:+ str e).
Proof.
  intros [path Hpath HScript | path script Hpath HScript Hcomplete
          | path script before c after Hpath HScript Hcomplete Hbefore Hc];
    unfold provide_completion; rewrite Hpath, bind_Return, HScript.
  - reflexivity.
  - rewrite bind_Return, Hcomplete. reflexivity.
  - rewrite bind_Return, Hcomplete, bind_Return.
    rewrite (completion_loop_raises before c after e Hbefore Hc). reflexivity.
Qed.

(** A text without an encoding ends the request before the engine is
    called, with the error of the namer. *)
Lemma provide_completion_unencodable (params : CompletionParams)
    (e : PyException) :
  get_virtual_path encode md5_hexdigest (text (text_document params)) = Raise e ->
  provide_completion encode md5_hexdigest jedi_Script params
    = HTTPException 500 ("Completion error: " +:+ str e).
Proof. intros H. unfold provide_completion. rewrite H. reflexivity. Qed.

(** The namer raises, or the engine returns all it is asked for, or the
    engine raises somewhere. *)
Lemma engine_returns_or_raises (params : CompletionParams) :
  (exists e,
     get_virtual_path encode md5_hexdigest (text (text_document params))
       = Raise e) \/
  (exists completions,
     engine_returns encode md5_hexdigest jedi_Script params completions) \/
  (exists e, engine_raises encode md5_hexdigest jedi_Script params e).
Proof.
  destruct (get_virtual_path encode md5_hexdigest (text (text_document params)))
    as [path|e] eqn:Hpath; [right | left; exists e; reflexivity].
  destruct (jedi_Script (text (text_document params)) path)
    as [script|e] eqn:HScript;
    [|right; exists e; exact (Script_raises _ _ _ _ _ path Hpath HScript)].
  destruct (complete script (line (position params) + 1)
              (character (position params)))
    as [completions|e] eqn:Hcomplete;
    [|right; exists e;
      exact (complete_raises _ _ _ _ _ path script Hpath HScript Hcomplete)].
  destruct (docstrings_return_or_raise completions)
    as [Hdocs|(before & c & after & e & -> & Hbefore & Hc)].
  - left. exists completions, path, script. auto.
  - right. exists e.
    exact (docstring_raises _ _ _ _ _ path script before c after
             Hpath HScript Hcomplete Hbefore Hc).
Qed.

(** A response always holds the items of all the matches. *)
Lemma provide_completion_Response_inv (params : CompletionParams)
    (response : CompletionResponse) :
  provide_completion encode md5_hexdigest jedi_Script params = Response response ->
  exists completions : list Completion,
    engine_returns encode md5_hexdigest jedi_Script params completions /\
    Forall2 item_of completions (items response).
Proof.
  intros H. destruct (engine_returns_or_raises params)
    as [[e He]|[[completions Hr]|[e He]]].
  - rewrite (provide_completion_unencodable params e He) in H. discriminate.
  - exists completions. split; [exact Hr|].
    destruct (provide_completion_returns params completions Hr) as (its & Hits & HF).
    rewrite Hits in H. injection H as <-. exact HF.
  - rewrite (provide_completion_raises params e He) in H. discriminate.
Qed.

Lemma item_of_labels (completions : list Completion)
    (completion_items : list CompletionItem) :
  Forall2 item_of completions completion_items ->
  label <$> completion_items = name <$> completions.
Proof.
  induction 1 as [|c item cs its (Hlabel & _) _ IH]; [reflexivity|].
  rewrite !fmap_cons, Hlabel, IH. reflexivity.
Qed.

(** C6: when the engine returns its matches, the response holds one
    item per match, at the same index, labelled with the name of that match
    (a label that is empty only if the name is). *)
Theorem provide_completion_preserves_order (params : CompletionParams)
    (completions : list Completion) :
  engine_returns encode md5_hexdigest jedi_Script params completions ->
  exists completion_items : list CompletionItem,
    provide_completion encode md5_hexdigest jedi_Script params
      = Response {| items := completion_items |} /\
    length completion_items = length completions /\
    label <$> completion_items = name <$> completions /\
    (forall (i : nat) (completion : Completion),
       completions !! i = Some completion ->
       exists item : CompletionItem,
         completion_items !! i = Some item /\
         label item = name completion /\
         (name completion <> "" -> label item <> "")).
Proof.
  intros Hr. destruct (provide_completion_returns params completions Hr)
    as (completion_items & Hresponse & Hitems).
  exists completion_items. split; [exact Hresponse|].
  split; [symmetry; exact (Forall2_length _ _ _ Hitems)|].
  split; [exact (item_of_labels _ _ Hitems)|].
  intros i completion Hi.
  destruct (Forall2_lookup_l _ _ _ _ _ Hitems Hi) as (item & Hitem & Hlabel & _).
  exists item. split; [exact Hitem|]. split; [exact Hlabel|].
  rewrite Hlabel. auto.
Qed.

(** C7: when a call into the engine raises (building the script, the
    query, or the docstring of some match) the handler raises an
    HTTPException with status 500 whose detail carries the text of that
    exception, and it answers with no response, so with no list of items. *)
Theorem provide_completion_engine_failure (params : CompletionParams)
    (e : PyException) :
  engine_raises encode md5_hexdigest jedi_Script params e ->
  provide_completion encode md5_hexdigest jedi_Script params
    = HTTPException 500 ("Completion error: " +:+ str e) /\
  (forall response : CompletionResponse,
     provide_completion encode md5_hexdigest jedi_Script params <> Response response).
Proof.
  intros He. rewrite (provide_completion_raises params e He).
  split; [reflexivity | discriminate].
Qed.

(** C10: when the engine returns its matches, each item carries the
    category of its match as [detail], the very string its [kind] was looked
    up from, and the docstring of its match as [documentation]; both fields
    are set. *)
Theorem provide_completion_detail_documentation (params : CompletionParams)
    (completions : list Completion) :
  engine_returns encode md5_hexdigest jedi_Script params completions ->
  exists completion_items : list CompletionItem,
    provide_completion encode md5_hexdigest jedi_Script params
      = Response {| items := completion_items |} /\
    Forall2 (fun completion item =>
               (exists category : string,
                  category = type completion /\
                  detail item = Some category /\
                  kind item = get_completion_kind category) /\
               (exists doc : string,
                  docstring completion = Return doc /\
                  documentation item = Some doc))
            completions completion_items.
Proof.
  intros Hr. destruct (provide_completion_returns params completions Hr)
    as (completion_items & Hresponse & Hitems).
  exists completion_items. split; [exact Hresponse|].
  eapply Forall2_impl; [exact Hitems|].
  intros completion item (_ & Hkind & Hdetail & Hdoc).
  split; [exists (type completion); auto | exact Hdoc].
Qed.

(** The handler asks the script one question, at the engine line of the
    client line and at the client character: a script that gives that
    answer to every question serves as well. *)
Lemma provide_completion_query (params : CompletionParams) :
  provide_completion encode md5_hexdigest jedi_Script params =
  provide_completion encode md5_hexdigest
    (fun code path =>
       script ← jedi_Script code path;
       Return {| complete := fun _ _ =>
         complete script (toEngineLine (line (position params)))
                  (character (position params)) |})
    params.
Proof.
  unfold provide_completion.
  destruct (get_virtual_path _ _ _) as [path|e]; [|reflexivity].
  rewrite !bind_Return.
  destruct (jedi_Script _ _) as [script|e]; reflexivity.
Qed.

End Completion.

Lemma Sample_engine_returns :
  engine_returns Sample.encode Sample.md5_hexdigest Sample.jedi_Script
    {| text_document := {| text := "example_module." |};
       position := {| line := 0; character := 15 |} |}
    [Sample.add; Sample.Calculator].
Proof.
  eexists _, _. split; [reflexivity|]. split; [reflexivity|].
  split; [reflexivity|]. repeat constructor; eexists; reflexivity.
Qed.

Lemma Sample_engine_raises :
  engine_raises Sample.encode Sample.md5_hexdigest Sample.jedi_Script
    {| text_document := {| text := "broken_module." |};
       position := {| line := 0; character := 14 |} |}
    (Exception "docstring unavailable").
Proof.
  eapply (docstring_raises _ _ _ _ _ _ _
            [Sample.add] Sample.broken [Sample.Calculator]);
    [reflexivity | reflexivity | reflexivity | | reflexivity].
  repeat constructor. eexists. reflexivity.
Qed.

Lemma provide_completion_preserves_order_witness :
  exists completion_items : list CompletionItem,
    provide_completion Sample.encode Sample.md5_hexdigest Sample.jedi_Script
      {| text_document := {| text := "example_module." |};
         position := {| line := 0; character := 15 |} |}
      = Response {| items := completion_items |} /\
    length completion_items = 2%nat /\
    label <$> completion_items = ["add"; "Calculator"] /\
    (forall (i : nat) (completion : Completion),
       [Sample.add; Sample.Calculator] !! i = Some completion ->
       exists item : CompletionItem,
         completion_items !! i = Some item /\
         label item = name completion /\
         (name completion <> "" -> label item <> "")).
Proof.
  exact (provide_completion_preserves_order Sample.encode Sample.md5_hexdigest Sample.jedi_Script
           _ _ Sample_engine_returns).
Defined.

Lemma provide_completion_engine_failure_witness :
  provide_completion Sample.encode Sample.md5_hexdigest Sample.jedi_Script
    {| text_document := {| text := "broken_module." |};
       position := {| line := 0; character := 14 |} |}
    = HTTPException 500 "Completion error: docstring unavailable" /\
  (forall response : CompletionResponse,
     provide_completion Sample.encode Sample.md5_hexdigest Sample.jedi_Script
       {| text_document := {| text := "broken_module." |};
          position := {| line := 0; character := 14 |} |}
     <> Response response).
Proof.
  exact (provide_completion_engine_failure Sample.encode Sample.md5_hexdigest Sample.jedi_Script
           _ _ Sample_engine_raises).
Defined.

Lemma provide_completion_detail_documentation_witness :
  exists completion_items : list CompletionItem,
    provide_completion Sample.encode Sample.md5_hexdigest Sample.jedi_Script
      {| text_document := {| text := "example_module." |};
         position := {| line := 0; character := 15 |} |}
      = Response {| items := completion_items |} /\
    Forall2 (fun completion item =>
               (exists category : string,
                  category = type completion /\
                  detail item = Some category /\
                  kind item = get_completion_kind category) /\
               (exists doc : string,
                  docstring completion = Return doc /\
                  documentation item = Some doc))
            [Sample.add; Sample.Calculator] completion_items.
Proof.
  exact (provide_completion_detail_documentation Sample.encode Sample.md5_hexdigest
           Sample.jedi_Script _ _ Sample_engine_returns).
Defined.

(** ** Coordinate translator *)

Lemma toClientLine_toEngineLine (L : Z) :
  0 <= L -> toClientLine (Some (toEngineLine L)) = L.
Proof. intros HL. unfold toClientLine, toEngineLine. lia. Qed.

(** C5, as the design document states it, fails in its last part: on
    the way back to the client a character offset does not pass unchanged.
    The column 8 that the parser reports for [if True] reaches the client
    as character 7. *)
Lemma character_offset_translated_counterexample :
  exists d : Diagnostic,
    Sample.ast_parse "if True"
      = Raise (SyntaxError (Some 1) (Some 8) "expected ':' (<unknown>, line 1)") /\
    provide_diagnostics Sample.ast_parse {| text := "if True" |}
      = Response {| diagnostics := [d] |} /\
    range_character (range d) "start" = Some 7 /\
    range_character (range d) "start" <> Some 8.
Proof.
  eexists. split; [reflexivity|]. split; [reflexivity|].
  split; [reflexivity | discriminate].
Qed.

(** C5 (amended): for a client line [L >= 0], going to the engine line
    and back is the identity, with [toEngineLine L = L + 1] and
    [toClientLine E = max (E - 1) 0].  The completion handler queries the
    engine at [toEngineLine L] and at the client's character offset,
    unchanged.  The diagnostics handler reports an error of the parser at
    engine line [toEngineLine L] on client line [L], and translates the
    parser's column like a line: to [max (offset - 1) 0], or 0 when absent. *)
Theorem line_translation_round_trip (L : Z) :
  0 <= L ->
  toEngineLine L = L + 1 /\
  (forall E : Z, toClientLine (Some E) = Z.max (E - 1) 0) /\
  toClientLine (Some (toEngineLine L)) = L /\
  (forall (encode : string -> result string)
          (md5_hexdigest : string -> string)
          (jedi_Script : string -> string -> result Script)
          (text_document : TextDocument) (C : Z),
     let params := {| text_document := text_document;
                      position := {| line := L; character := C |} |} in
     provide_completion encode md5_hexdigest jedi_Script params =
     provide_completion encode md5_hexdigest
       (fun code path =>
          script ← jedi_Script code path;
          Return {| complete := fun _ _ => complete script (L + 1) C |})
       params) /\
  (forall (ast_parse : string -> result unit) (params : TextDocument)
          (offset : option Z) (str_e : string),
     ast_parse (text params)
       = Raise (SyntaxError (Some (toEngineLine L)) offset str_e) ->
     exists d : Diagnostic,
       provide_diagnostics ast_parse params = Response {| diagnostics := [d] |} /\
       range_line (range d) "start" = Some L /\
       range_character (range d) "start"
         = Some (match offset with Some n => Z.max (n - 1) 0 | None => 0 end)).
Proof.
  intros HL. split; [reflexivity|]. split; [reflexivity|].
  split; [exact (toClientLine_toEngineLine L HL)|]. split.
  - intros encode md5_hexdigest jedi_Script text_document C params.
    exact (provide_completion_query encode md5_hexdigest jedi_Script params).
  - intros ast_parse params offset str_e H.
    eexists. split; [exact (provide_diagnostics_SyntaxError _ _ _ _ _ H)|].
    cbn [range]. destruct (create_range_start (toClientLine (Some (toEngineLine L)))
                             (toClientLine offset) None None) as [-> ->].
    rewrite (toClientLine_toEngineLine L HL). split; reflexivity.
Qed.

Lemma line_translation_round_trip_witness :
  toClientLine (Some (toEngineLine 5)) = 5.
Proof.
  exact (proj1 (proj2 (proj2 (line_translation_round_trip 5 ltac:(lia))))).
Defined.

(** * Further properties of the server *)

(** X1: whatever the engine calls a category, the items of a response
    only carry kinds of the enumeration: 1, 2, 3, 6, 7, 9, 10, 14 or 17. *)
Theorem provide_completion_kinds_in_enumeration
    (encode : string -> result string)
    (md5_hexdigest : string -> string)
    (jedi_Script : string -> string -> result Script)
    (params : CompletionParams) (response : CompletionResponse)
    (item : CompletionItem) :
  provide_completion encode md5_hexdigest jedi_Script params = Response response ->
  item ∈ items response ->
  kind item ∈ [1; 2; 3; 6; 7; 9; 10; 14; 17].
Proof.
  intros H Hitem.
  destruct (provide_completion_Response_inv _ _ _ _ _ H) as (completions & _ & HF).
  apply list_elem_of_lookup in Hitem as [i Hi].
  destruct (Forall2_lookup_r _ _ _ _ _ HF Hi) as (c & _ & _ & -> & _).
  apply get_completion_kind_range.
Qed.

Lemma provide_completion_kinds_in_enumeration_witness :
  kind {| label := "Calculator"; kind := 7; detail := Some "class";
          documentation := Some "Calculator()" |}
  ∈ [1; 2; 3; 6; 7; 9; 10; 14; 17].
Proof.
  eapply (provide_completion_kinds_in_enumeration Sample.encode Sample.md5_hexdigest
            Sample.jedi_Script
            {| text_document := {| text := "example_module." |};
               position := {| line := 0; character := 15 |} |}
            _ {| label := "Calculator"; kind := 7; detail := Some "class";
                 documentation := Some "Calculator()" |});
    [reflexivity|]. simpl. set_solver.
Defined.

(** X2: an end that is supplied with both coordinates different from 0
    is the end of the range, and the start is untouched by it. *)
Theorem create_range_keeps_nonzero_end (line column end_line end_column : Z) :
  end_line <> 0 -> end_column <> 0 ->
  create_range line column (Some end_line) (Some end_column) =
  <["start" := <["line" := line]> (<["character" := column]> ∅)]>
  (<["end" := <["line" := end_line]> (<["character" := end_column]> ∅)]> ∅).
Proof.
  intros Hl Hc. unfold create_range.
  rewrite !or_nonzero by assumption. reflexivity.
Qed.

Lemma create_range_keeps_nonzero_end_witness :
  create_range 2 5 (Some 3) (Some 1) =
  <["start" := <["line" := 2]> (<["character" := 5]> ∅)]>
  (<["end" := <["line" := 3]> (<["character" := 1]> ∅)]> ∅).
Proof. apply create_range_keeps_nonzero_end; discriminate. Defined.

(** X3: two documents that can be encoded get different names exactly
    when the digests of their encodings differ; the name adds no collision
    to those of the digest. *)
Theorem get_virtual_path_collides_with_digest
    (encode : string -> result string) (md5_hexdigest : string -> string)
    (text1 text2 data1 data2 : string) :
  encode text1 = Return data1 ->
  encode text2 = Return data2 ->
  get_virtual_path encode md5_hexdigest text1
    <> get_virtual_path encode md5_hexdigest text2
  <-> md5_hexdigest data1 <> md5_hexdigest data2.
Proof.
  intros H1 H2.
  rewrite (get_virtual_path_encoded _ _ _ _ H1).
  rewrite (get_virtual_path_encoded _ _ _ _ H2).
  split; intros Hne Heq; apply Hne.
  - rewrite Heq. reflexivity.
  - apply Return_inj in Heq. exact (virtual_path_hash_inj _ _ Heq).
Qed.

Lemma get_virtual_path_collides_with_digest_witness :
  get_virtual_path Sample.encode Sample.md5_hexdigest ""
    <> get_virtual_path Sample.encode Sample.md5_hexdigest "a"
  <-> Sample.md5_hexdigest "" <> Sample.md5_hexdigest "a".
Proof.
  exact (get_virtual_path_collides_with_digest Sample.encode
           Sample.md5_hexdigest "" "a" "" "a" eq_refl eq_refl).
Defined.

(** X4: a response is never short of a match: behind it is a run of
    the engine in which every call returned, and its items are as many as
    the matches, labelled with their names in their order. *)
Theorem provide_completion_response_complete
    (encode : string -> result string)
    (md5_hexdigest : string -> string)
    (jedi_Script : string -> string -> result Script)
    (params : CompletionParams) (response : CompletionResponse) :
  provide_completion encode md5_hexdigest jedi_Script params = Response response ->
  exists completions : list Completion,
    engine_returns encode md5_hexdigest jedi_Script params completions /\
    length (items response) = length completions /\
    label <$> items response = name <$> completions.
Proof.
  intros H.
  destruct (provide_completion_Response_inv _ _ _ _ _ H) as (completions & Hr & HF).
  exists completions. split; [exact Hr|]. split.
  - symmetry. exact (Forall2_length _ _ _ HF).
  - exact (item_of_labels _ _ HF).
Qed.

Lemma provide_completion_response_complete_witness :
  exists completions : list Completion,
    engine_returns Sample.encode Sample.md5_hexdigest Sample.jedi_Script
      {| text_document := {| text := "example_module." |};
         position := {| line := 0; character := 15 |} |} completions /\
    length [ {| label := "add"; kind := 3; detail := Some "function";
                documentation := Some "add(a, b)" |};
             {| label := "Calculator"; kind := 7; detail := Some "class";
                documentation := Some "Calculator()" |} ] = length completions /\
    ["add"; "Calculator"] = name <$> completions.
Proof.
  apply (provide_completion_response_complete Sample.encode Sample.md5_hexdigest
           Sample.jedi_Script
           {| text_document := {| text := "example_module." |};
              position := {| line := 0; character := 15 |} |}
           {| items := [ {| label := "add"; kind := 3; detail := Some "function";
                            documentation := Some "add(a, b)" |};
                         {| label := "Calculator"; kind := 7;
                            detail := Some "class";
                            documentation := Some "Calculator()" |} ] |}).
  reflexivity.
Defined.

(** X5: the completion handler lets no exception through, be it of
    the namer or of the engine: it answers, or it raises an HTTPException
    with status 500 whose detail is [Completion error: ] followed by the
    text of the exception that the namer raised (the engine is not called
    then) or that the engine raised. *)
Theorem provide_completion_never_unhandled
    (encode : string -> result string)
    (md5_hexdigest : string -> string)
    (jedi_Script : string -> string -> result Script)
    (params : CompletionParams) :
  match provide_completion encode md5_hexdigest jedi_Script params with
  | Response _ => True
  | HTTPException status_code detail =>
      status_code = 500 /\
      exists e : PyException,
        (encode (text (text_document params)) = Raise e \/
         engine_raises encode md5_hexdigest jedi_Script params e) /\
        detail = "Completion error: " +:+ str e
  | Unhandled _ => False
  end.
Proof.
  destruct (engine_returns_or_raises encode md5_hexdigest jedi_Script params)
    as [[e He]|[[completions Hr]|[e He]]].
  - rewrite (provide_completion_unencodable _ _ _ _ _ He).
    split; [reflexivity|]. exists e. split; [left | reflexivity].
    unfold get_virtual_path in He.
    destruct (encode (text (text_document params))) as [data|e'];
      [discriminate He | injection He as ->; reflexivity].
  - destruct (provide_completion_returns _ _ _ _ _ Hr) as (its & -> & _). exact I.
  - rewrite (provide_completion_raises _ _ _ _ _ He). split; [reflexivity|].
    exists e. split; [right; exact He | reflexivity].
Qed.

(** X7: every diagnostic the handler answers with is an error
    (severity 1) whose range starts at non-negative coordinates and ends on
    the same line, one character further. *)
Theorem provide_diagnostics_well_formed (ast_parse : string -> result unit)
    (params : TextDocument) (response : DiagnosticResponse) (d : Diagnostic) :
  provide_diagnostics ast_parse params = Response response ->
  d ∈ diagnostics response ->
  severity d = 1 /\
  exists line col : Z,
    0 <= line /\ 0 <= col /\
    range_line (range d) "start" = Some line /\
    range_character (range d) "start" = Some col /\
    range_line (range d) "end" = Some line /\
    range_character (range d) "end" = Some (col + 1).
Proof.
  destruct (ast_parse (text params)) as [[]|[lineno offset s|s]] eqn:H.
  - rewrite (provide_diagnostics_valid _ params () H). intros [= <-]. simpl.
    intros Hd. apply elem_of_nil in Hd. contradiction.
  - rewrite (provide_diagnostics_SyntaxError _ _ _ _ _ H). intros [= <-].
    cbn [diagnostics]. intros Hd. apply list_elem_of_singleton in Hd as ->.
    split; [reflexivity|].
    exists (toClientLine lineno), (toClientLine offset).
    split; [apply toClientLine_nonneg|]. split; [apply toClientLine_nonneg|].
    repeat split; reflexivity.
  - rewrite (provide_diagnostics_Exception _ _ _ H). discriminate.
Qed.

Lemma provide_diagnostics_well_formed_witness :
  let d := {| range := create_range 0 7 None None;
              message := "expected ':' (<unknown>, line 1)";
              severity := 1 |} in
  severity d = 1 /\
  exists line col : Z,
    0 <= line /\ 0 <= col /\
    range_line (range d) "start" = Some line /\
    range_character (range d) "start" = Some col /\
    range_line (range d) "end" = Some line /\
    range_character (range d) "end" = Some (col + 1).
Proof.
  apply (provide_diagnostics_well_formed Sample.ast_parse {| text := "if True" |}
           {| diagnostics := [ {| range := create_range 0 7 None None;
                                  message := "expected ':' (<unknown>, line 1)";
                                  severity := 1 |} ] |}
           {| range := create_range 0 7 None None;
              message := "expected ':' (<unknown>, line 1)";
              severity := 1 |});
    [reflexivity|]. simpl. set_solver.
Defined.

Lemma provide_diagnostics_only_syntax_witness :
  exists lineno offset str_e,
    Sample.ast_parse "if True" = Raise (SyntaxError lineno offset str_e).
Proof.
  apply (provide_diagnostics_only_syntax Sample.ast_parse {| text := "if True" |}
           {| range := create_range 0 7 None None;
              message := "expected ':' (<unknown>, line 1)";
              severity := 1 |}
           {| diagnostics := [ {| range := create_range 0 7 None None;
                                  message := "expected ':' (<unknown>, line 1)";
                                  severity := 1 |} ] |});
    [reflexivity|]. simpl. set_solver.
Defined.

(** * Properties of [example_module.py] *)

Section CalculatorFacts.

Import example_module.

(** X9: on integers, adding a number and subtracting it again, in either order,
    brings the instance back to where it was and returns its old value. *)
Theorem Calculator_add_subtract_round_trip (self : Calculator) (number : Z) :
  Calculator.subtract (snd (Calculator.add self number)) number
    = (value self, self) /\
  Calculator.add (snd (Calculator.subtract self number)) number
    = (value self, self).
Proof.
  destruct self as [v]. unfold Calculator.add, Calculator.subtract. simpl.
  split; repeat f_equal; lia.
Qed.

Lemma run_app (self : Calculator) (calls1 calls2 : list Calculator.call) :
  Calculator.run self (calls1 ++ calls2) =
  let '(returns1, self1) := Calculator.run self calls1 in
  let '(returns2, self2) := Calculator.run self1 calls2 in
  (returns1 ++ returns2, self2).
Proof.
  revert self. induction calls1 as [|c calls1 IH]; intros self; simpl.
  - destruct (Calculator.run self calls2). reflexivity.
  - destruct (Calculator.invoke self c) as [r self'].
    rewrite IH. destruct (Calculator.run self' calls1) as [rs1 self1].
    destruct (Calculator.run self1 calls2). reflexivity.
Qed.

(** X10: on integers, over a run of calls with no reset among them,
    the value moves by the numbers added less the numbers subtracted. *)
Theorem Calculator_run_sum (self : Calculator) (calls : list Calculator.call) :
  Calculator.Reset ∉ calls ->
  value (snd (Calculator.run self calls))
    = value self + foldr Z.add 0 (Calculator.delta <$> calls).
Proof.
  revert self. induction calls as [|c calls IH]; intros self Hno.
  - simpl. lia.
  - apply not_elem_of_cons in Hno as [Hc Hno].
    rewrite fmap_cons. cbn [foldr Calculator.run].
    destruct (Calculator.invoke self c) as [r self'] eqn:Hinv.
    specialize (IH self' Hno).
    destruct (Calculator.run self' calls) as [rs self'']. cbn [snd] in *.
    rewrite IH. destruct c; try contradiction;
      injection Hinv as _ <-; cbn [value Calculator.delta]; lia.
Qed.

Lemma Calculator_run_sum_witness :
  value (snd (Calculator.run (Calculator.__init__ (Some 10))
                [Calculator.Add 5; Calculator.GetValue; Calculator.Subtract 7]))
    = 10 + foldr Z.add 0
             (Calculator.delta <$>
                [Calculator.Add 5; Calculator.GetValue; Calculator.Subtract 7]).
Proof.
  apply Calculator_run_sum. rewrite !elem_of_cons, elem_of_nil.
  intros H. repeat (destruct H as [H|H]; [discriminate H|]). exact H.
Defined.

(** X11: a reset forgets what came before it: the calls after it
    return what they return on a fresh instance, and leave the same value. *)
Theorem Calculator_reset_forgets (self : Calculator)
    (before after : list Calculator.call) :
  Calculator.run self (before ++ Calculator.Reset :: after) =
  (fst (Calculator.run self before)
     ++ 0 :: fst (Calculator.run (Calculator.__init__ None) after),
   snd (Calculator.run (Calculator.__init__ None) after)).
Proof.
  rewrite run_app. destruct (Calculator.run self before) as [rs1 self1]. simpl.
  change {| value := 0 |} with (Calculator.__init__ None).
  destruct (Calculator.run (Calculator.__init__ None) after). reflexivity.
Qed.

End CalculatorFacts.

(** * Properties of [test_client.py] *)

Lemma call_Return_bind {A B} (a : A) (f : A -> io B) :
  call_ (Return a) ≫= f = f a.
Proof.
  unfold call_, mbind, io_bind. cbn [returned printed app].
  destruct (f a); reflexivity.
Qed.

Lemma call_Raise_bind {A B} (e : PyException) (f : A -> io B) :
  call_ (Raise e) ≫= f = IO [] (Raise e).
Proof. reflexivity. Qed.

Lemma print_bind {B} (s : string) (f : unit -> io B) :
  print s ≫= f = IO (s :: printed (f ())) (returned (f ())).
Proof. reflexivity. Qed.

Lemma IO_Return_bind {A B} (out : list string) (a : A) (f : A -> io B) :
  IO out (Return a) ≫= f = IO (out ++ printed (f a)) (returned (f a)).
Proof. reflexivity. Qed.

Section ClientFacts.

Variable post_completion :
  string -> CompletionParams
  -> result (Client.HTTPResponse (gmap string Client.scalar)).
Variable strip : string -> string.

(** The loop shows the items it is allowed to show and, if any item is
    left, says how many the list has beyond [max_display]. *)
Lemma display_loop_prints (completions : list (gmap string Client.scalar))
    (max_display : Z) (items : list (gmap string Client.scalar)) :
  forall i : Z,
    Forall Client.displayable (take (Z.to_nat (max_display - i)) items) ->
    exists lines : list string,
      Client.display_loop completions max_display i items =
      IO (lines ++
            if decide (items = [] \/ Z.of_nat (length items) <= max_display - i)
            then []
            else ["  ... "
                  +:+ pretty (Z.of_nat (length completions) - max_display)
                  +:+ " more items not shown"])
         (Return ()) /\
      Forall2 Client.shows (take (Z.to_nat (max_display - i)) items) lines.
Proof.
  induction items as [|item items IH]; intros i Hkeys.
  - exists []. rewrite decide_True by (left; reflexivity).
    rewrite take_nil. split; [reflexivity | constructor].
  - cbn [Client.display_loop]. destruct (Z.leb_spec max_display i) as [Hle|Hlt].
    + exists []. rewrite decide_False.
      * replace (Z.to_nat (max_display - i)) with 0%nat by lia.
        split; [reflexivity | constructor].
      * intros [Hnil|Hlen]; [discriminate Hnil|]. cbn [length] in Hlen. lia.
    + assert (Z.to_nat (max_display - i)
              = S (Z.to_nat (max_display - (i + 1)))) as Hn by lia.
      rewrite Hn in Hkeys |- *. rewrite firstn_cons in Hkeys |- *.
      apply Forall_cons in Hkeys as [[[label Hlabel] [detail Hdetail]] Hkeys].
      destruct (IH (i + 1) Hkeys) as (lines & Hloop & Hlines).
      exists (("  - " +:+ Client.format label +:+ " ("
               +:+ Client.format detail +:+ ")") :: lines).
      split.
      * unfold getitem. rewrite Hlabel, Hdetail, !call_Return_bind, print_bind.
        rewrite Hloop. cbn [printed returned app]. f_equal. f_equal. f_equal.
        destruct (decide (items = [] \/ _)) as [Hd|Hd];
          [rewrite decide_True; [reflexivity|]
          |rewrite decide_False; [reflexivity|]].
        -- right. cbn [length]. destruct Hd as [->|Hd]; [simpl|]; lia.
        -- intros [Hnil|Hlen]; [discriminate Hnil|]. apply Hd. right.
           cbn [length] in Hlen. lia.
      * constructor; [|exact Hlines]. exists label, detail. auto.
Qed.

(** The loop stops with a [KeyError] at the first item, among those it
    may show, that lacks a key; the items before it have been shown. *)
Lemma display_loop_KeyError (completions : list (gmap string Client.scalar))
    (max_display : Z) (before : list (gmap string Client.scalar))
    (item : gmap string Client.scalar)
    (after : list (gmap string Client.scalar)) :
  forall i : Z,
    Z.of_nat (length before) < max_display - i ->
    Forall Client.displayable before ->
    ~ Client.displayable item ->
    exists lines : list string,
      Client.display_loop completions max_display i (before ++ item :: after) =
      IO lines (Raise (Exception
        (if decide (item !! "label" = None) then "'label'" else "'detail'"))) /\
      Forall2 Client.shows before lines.
Proof.
  induction before as [|b before IH]; intros i Hlen Hkeys Hbad.
  - exists []. split; [|constructor]. cbn [app Client.display_loop].
    cbn [length] in Hlen.
    destruct (Z.leb_spec max_display i) as [Hle|_]; [lia|].
    unfold getitem. destruct (item !! "label") as [label|] eqn:Hlabel.
    + rewrite call_Return_bind.
      destruct (item !! "detail") as [detail|] eqn:Hdetail.
      * exfalso. apply Hbad. split; eauto.
      * rewrite decide_False by discriminate. reflexivity.
    + rewrite decide_True by reflexivity. reflexivity.
  - cbn [length] in Hlen. apply Forall_cons in Hkeys
      as [[[label Hlabel] [detail Hdetail]] Hkeys].
    destruct (IH (i + 1) ltac:(lia) Hkeys Hbad) as (lines & Hloop & Hlines).
    exists (("  - " +:+ Client.format label +:+ " ("
             +:+ Client.format detail +:+ ")") :: lines).
    split; [|constructor; [exists label, detail; auto | exact Hlines]].
    rewrite <- app_comm_cons. cbn [Client.display_loop].
    destruct (Z.leb_spec max_display i) as [Hle|_]; [lia|].
    unfold getitem. rewrite Hlabel, Hdetail, !call_Return_bind, print_bind.
    rewrite Hloop. reflexivity.
Qed.

(** X12: when the request gave a list that is not empty,
    [test_completions] prints its banner, what the request printed, the
    count line, then one line for each of the first [max_display] items in
    their order (these must have a label and a detail, the others are not
    looked at), then, if the list is longer than [max_display], the line
    telling by how much; and it returns the list as it got it. *)
Theorem test_completions_display (title code : string) (line character : Z)
    (max_display : Z) (out : list string)
    (completions : list (gmap string Client.scalar)) :
  Client.get_completions post_completion code line character
    = IO out (Return completions) ->
  completions <> [] ->
  Forall Client.displayable (take (Z.to_nat max_display) completions) ->
  exists lines : list string,
    Client.test_completions post_completion strip title code line character
      max_display =
    IO ([Client.LF +:+ "=== TESTING " +:+ title +:+ " ===";
         "Code: " +:+ strip code;
         "Position: Line " +:+ pretty line +:+ ", Character "
           +:+ pretty character]
        ++ out
        ++ ["Found " +:+ pretty (Z.of_nat (length completions))
            +:+ " completions, showing first "
            +:+ pretty (Z.min max_display (Z.of_nat (length completions)))
            +:+ ":"]
        ++ lines
        ++ (if decide (Z.of_nat (length completions) <= max_display) then []
            else ["  ... "
                  +:+ pretty (Z.of_nat (length completions) - max_display)
                  +:+ " more items not shown"]))
       (Return completions) /\
    Forall2 Client.shows (take (Z.to_nat max_display) completions) lines /\
    length lines = Nat.min (Z.to_nat max_display) (length completions).
Proof.
  intros Hget Hne Hkeys.
  destruct (display_loop_prints completions max_display completions 0)
    as (lines & Hloop & Hlines); [rewrite Z.sub_0_r; exact Hkeys|].
  rewrite Z.sub_0_r in Hloop, Hlines.
  exists lines. split; [|split; [exact Hlines|]].
  - unfold Client.test_completions. rewrite !print_bind, Hget, IO_Return_bind.
    destruct completions as [|c cs]; [contradiction|].
    rewrite print_bind, Hloop. cbn [printed returned app].
    rewrite IO_Return_bind. unfold mret, io_ret. cbn [printed returned].
    rewrite app_nil_r.
    destruct (decide (Z.of_nat (length (c :: cs)) <= max_display)) as [Hd|Hd].
    + rewrite decide_True by (right; exact Hd). reflexivity.
    + rewrite decide_False by (intros [Hnil|Hlen]; [discriminate | tauto]).
      reflexivity.
  - rewrite <- (Forall2_length _ _ _ Hlines). apply length_take.
Qed.

(** X13: when one of the first [max_display] items lacks its label
    or its detail, [test_completions] does not return the list it got: it
    raises the [KeyError] of the first such item (for the label, if both
    are missing), having shown the items before it. *)
Theorem test_completions_KeyError (title code : string) (line character : Z)
    (max_display : Z) (out : list string)
    (before : list (gmap string Client.scalar))
    (item : gmap string Client.scalar)
    (after : list (gmap string Client.scalar)) :
  Client.get_completions post_completion code line character
    = IO out (Return (before ++ item :: after)) ->
  Z.of_nat (length before) < max_display ->
  Forall Client.displayable before ->
  ~ Client.displayable item ->
  exists lines : list string,
    Client.test_completions post_completion strip title code line character
      max_display =
    IO ([Client.LF +:+ "=== TESTING " +:+ title +:+ " ===";
         "Code: " +:+ strip code;
         "Position: Line " +:+ pretty line +:+ ", Character "
           +:+ pretty character]
        ++ out
        ++ ["Found " +:+ pretty (Z.of_nat (length (before ++ item :: after)))
            +:+ " completions, showing first "
            +:+ pretty (Z.min max_display
                          (Z.of_nat (length (before ++ item :: after))))
            +:+ ":"]
        ++ lines)
       (Raise (Exception
          (if decide (item !! "label" = None) then "'label'" else "'detail'")))
    /\ Forall2 Client.shows before lines.
Proof.
  intros Hget Hlen Hkeys Hbad.
  destruct (display_loop_KeyError (before ++ item :: after) max_display
              before item after 0 ltac:(lia) Hkeys Hbad)
    as (lines & Hloop & Hlines).
  exists lines. split; [|exact Hlines].
  unfold Client.test_completions. rewrite !print_bind, Hget, IO_Return_bind.
  destruct (before ++ item :: after) as [|c cs] eqn:Hlist;
    [destruct before; discriminate Hlist|].
  rewrite print_bind, Hloop. reflexivity.
Qed.

(** X14: any status other than 200 reaches the caller as an empty list:
    [test_completions] prints the status and the text of the response, then
    that no completions were found, and returns [[]], without reading the
    body. *)
Theorem test_completions_server_error (title code : string)
    (line character : Z) (max_display : Z)
    (response : Client.HTTPResponse (gmap string Client.scalar)) :
  post_completion (Client.LSP_SERVER_URL +:+ "/completion")
    {| text_document := {| text := code |};
       position := {| line := line; character := character |} |}
    = Return response ->
  Client.status_code response <> 200 ->
  Client.test_completions post_completion strip title code line character
    max_display =
  IO [Client.LF +:+ "=== TESTING " +:+ title +:+ " ===";
      "Code: " +:+ strip code;
      "Position: Line " +:+ pretty line +:+ ", Character " +:+ pretty character;
      "Error: " +:+ pretty (Client.status_code response) +:+ ", "
        +:+ Client.text response;
      "No completions found."]
     (Return []).
Proof.
  intros Hpost Hstatus.
  unfold Client.test_completions, Client.get_completions.
  rewrite !print_bind, Hpost, call_Return_bind.
  rewrite decide_False by exact Hstatus. reflexivity.
Qed.

End ClientFacts.

(** X15: a list of diagnostics that is not empty can only have come
    from a response with status 200 whose body holds it under the key
    [diagnostics]; nothing is printed then. *)
Theorem get_diagnostics_nonempty {I : Type}
    (post_diagnostic : string -> TextDocument -> result (Client.HTTPResponse I))
    (code : string) (diagnostics : list I) :
  returned (Client.get_diagnostics post_diagnostic code) = Return diagnostics ->
  diagnostics <> [] ->
  exists (response : Client.HTTPResponse I) (body : gmap string (list I)),
    post_diagnostic (Client.LSP_SERVER_URL +:+ "/diagnostic") {| text := code |}
      = Return response /\
    Client.status_code response = 200 /\
    Client.json response = Return body /\
    body !! "diagnostics" = Some diagnostics /\
    printed (Client.get_diagnostics post_diagnostic code) = [].
Proof.
  unfold Client.get_diagnostics. intros Hret Hne.
  destruct (post_diagnostic _ _) as [response|e]; [|discriminate Hret].
  rewrite call_Return_bind in Hret |- *.
  destruct (decide (Client.status_code response = 200)) as [Hstatus|Hstatus].
  - destruct (Client.json response) as [body|e] eqn:Hjson; [|discriminate Hret].
    rewrite call_Return_bind in Hret |- *. unfold getitem in Hret |- *.
    destruct (body !! "diagnostics") as [l|] eqn:Hkey; [|discriminate Hret].
    injection Hret as ->. exists response, body. auto.
  - rewrite print_bind in Hret. injection Hret as <-. contradiction.
Qed.

Lemma ClientSample_displayable (label detail : string) (kind : Z) :
  Client.displayable (ClientSample.item label detail kind).
Proof. split; eexists; reflexivity. Qed.

Lemma ClientSample_bare_not_displayable :
  ~ Client.displayable ClientSample.bare_item.
Proof. intros [_ [detail Hdetail]]. discriminate Hdetail. Qed.

Lemma test_completions_display_witness :
  let completions :=
    [ClientSample.item "add" "function" 3;
     ClientSample.item "Calculator" "class" 7; ClientSample.bare_item] in
  exists lines : list string,
    Client.test_completions ClientSample.post_completion ClientSample.strip
      "LOCAL MODULE COMPLETIONS" "example_module." 0 15 2 =
    IO ([Client.LF +:+ "=== TESTING LOCAL MODULE COMPLETIONS ===";
         "Code: example_module.";
         "Position: Line 0, Character 15"]
        ++ []
        ++ ["Found 3 completions, showing first 2:"]
        ++ lines
        ++ ["  ... 1 more items not shown"])
       (Return completions) /\
    Forall2 Client.shows (take 2 completions) lines /\
    length lines = 2%nat.
Proof.
  intros completions.
  refine (test_completions_display ClientSample.post_completion
            ClientSample.strip "LOCAL MODULE COMPLETIONS" "example_module."
            0 15 2 [] completions eq_refl _ _); [discriminate|].
  repeat constructor; eexists; reflexivity.
Defined.

Lemma test_completions_KeyError_witness :
  exists lines : list string,
    Client.test_completions ClientSample.post_completion ClientSample.strip
      "LOCAL MODULE COMPLETIONS" "example_module." 0 15 10 =
    IO ([Client.LF +:+ "=== TESTING LOCAL MODULE COMPLETIONS ===";
         "Code: example_module.";
         "Position: Line 0, Character 15"]
        ++ []
        ++ ["Found 3 completions, showing first 3:"]
        ++ lines)
       (Raise (Exception "'detail'")) /\
    Forall2 Client.shows
      [ClientSample.item "add" "function" 3;
       ClientSample.item "Calculator" "class" 7] lines.
Proof.
  apply (test_completions_KeyError ClientSample.post_completion
           ClientSample.strip "LOCAL MODULE COMPLETIONS" "example_module."
           0 15 10 []
           [ClientSample.item "add" "function" 3;
            ClientSample.item "Calculator" "class" 7]
           ClientSample.bare_item []);
    [reflexivity | simpl; lia | | exact ClientSample_bare_not_displayable].
  repeat constructor; eexists; reflexivity.
Defined.

Lemma test_completions_server_error_witness :
  Client.test_completions ClientSample.post_completion ClientSample.strip
    "PANDAS COMPLETIONS" "df." 3 3 10 =
  IO [Client.LF +:+ "=== TESTING PANDAS COMPLETIONS ===";
      "Code: df.";
      "Position: Line 3, Character 3";
      "Error: 500, Internal Server Error";
      "No completions found."]
     (Return []).
Proof.
  apply (test_completions_server_error ClientSample.post_completion
           ClientSample.strip "PANDAS COMPLETIONS" "df." 3 3 10
           {| Client.status_code := 500;
              Client.text := "Internal Server Error";
              Client.json := Raise (Exception "Expecting value") |});
    [reflexivity | discriminate].
Defined.

Lemma get_diagnostics_nonempty_witness :
  exists (response : Client.HTTPResponse Diagnostic)
         (body : gmap string (list Diagnostic)),
    ClientSample.post_diagnostic (Client.LSP_SERVER_URL +:+ "/diagnostic")
      {| text := "if True" |} = Return response /\
    Client.status_code response = 200 /\
    Client.json response = Return body /\
    body !! "diagnostics"
      = Some [ {| range := create_range 0 7 None None;
                  message := "expected ':' (<unknown>, line 1)";
                  severity := 1 |} ] /\
    printed (Client.get_diagnostics ClientSample.post_diagnostic "if True") = [].
Proof.
  apply (get_diagnostics_nonempty ClientSample.post_diagnostic "if True");
    [reflexivity | discriminate].
Defined.
